(** * demo_test_vectors.h: the demo model's test vectors

    The header declares a count constant and five [static const float]
    arrays of ten elements each, every element written as a decimal
    literal with eight fractional digits and the [f] suffix.

    A literal [d.dddddddd f] is modelled as the integer [n] with value
    [n / 10^8] (the text of the source), and the stored element is its
    IEEE 754 binary32 rounding (round to nearest, ties to even), which is
    what a C compiler stores for such a literal. *)

From Stdlib Require Import String.
From Stdlib Require Import ZArith QArith Qabs List Bool Lia.
Import ListNotations.

Open Scope Z_scope.

(** ** Binary32 values *)

(** A binary32 datum: a finite value [(-1)^s * m * 2^e] with
    [0 <= m < 2^24] and [-149 <= e <= 104], an infinity, or NaN. *)
Inductive f32 : Type :=
| F32 (s : bool) (m e : Z)
| F32Inf (s : bool)
| F32NaN.

Definition lit_den : Z := 10 ^ 8.

(** [floor (a * 2^-e / lit_den)] for [a >= 0]. *)
Definition quot_at (a e : Z) : Z :=
  if e <=? 0 then (a * 2 ^ (- e)) / lit_den else a / (lit_den * 2 ^ e).

Definition rem_at (a e : Z) : Z :=
  if e <=? 0 then (a * 2 ^ (- e)) mod lit_den else a mod (lit_den * 2 ^ e).

Definition den_at (e : Z) : Z :=
  if e <=? 0 then lit_den else lit_den * 2 ^ e.

(** Exponent of the last mantissa bit for a positive value [a / 10^8]:
    the [e] with [2^23 <= floor (a * 2^-e / 10^8) < 2^24], clamped to
    the subnormal exponent [-149]. *)
Definition exp_of (a : Z) : Z :=
  let e0 := Z.log2 a - Z.log2 lit_den - 23 in
  let e := if 2 ^ 23 <=? quot_at a e0 then e0 else e0 - 1 in
  Z.max e (-149).

(** Round half to even of [a * 2^-e / 10^8]. *)
Definition round_at (a e : Z) : Z :=
  let q := quot_at a e in
  let r2 := 2 * rem_at a e in
  let d := den_at e in
  if (d <? r2) || ((r2 =? d) && Z.odd q) then q + 1 else q.

(** The binary32 stored for the C literal whose value is [n / 10^8]. *)
Definition fl32 (n : Z) : f32 :=
  let s := n <? 0 in
  let a := Z.abs n in
  if a =? 0 then F32 s 0 0 else
  let e := exp_of a in
  let m := round_at a e in
  let '(m', e') := if m =? 2 ^ 24 then (2 ^ 23, e + 1) else (m, e) in
  if 104 <? e' then F32Inf s else F32 s m' e'.

(** The exact rational value of a finite binary32. *)
Definition f32_Q (x : f32) : option Q :=
  match x with
  | F32 s m e =>
      let v := if e <? 0 then Qmake m (Z.to_pos (2 ^ (- e)))
               else inject_Z (m * 2 ^ e) in
      Some (if s then Qopp v else v)
  | _ => None
  end.

Definition is_finite (x : f32) : bool :=
  match x with F32 _ _ _ => true | _ => false end.

Definition is_nonzero (x : f32) : bool :=
  match x with F32 _ m _ => negb (m =? 0) | F32Inf _ => true | F32NaN => true end.

(** ** The header *)

Definition DEMO_N_TEST_VECTORS : Z := 5.

(** The literals of each array, as written (scaled by [10^8]). *)
Definition demo_test_lit_0 : list Z :=
  [-16711809; 14671369; 120650899; -81693566; 36867329; -39333880;
   2874482; 127845192; 19109906; 4643655].

Definition demo_test_lit_1 : list Z :=
  [-135985613; 74625355; 64548421; 216325474; -30777824; 21915033;
   24938369; 157745326; -9529553; 27902153].

Definition demo_test_lit_2 : list Z :=
  [60789651; 18660912; -44643360; 19408999; 107363176; -102651525;
   13296968; -70012081; 119504666; -152318692].

Definition demo_test_lit_3 : list Z :=
  [-55892187; 37721187; 156552398; -6575026; -55519950; 188115704;
   -144801390; -219880605; 44001445; -50205421].

Definition demo_test_lit_4 : list Z :=
  [-102123284; 70835644; 24380071; -56407863; -128030443; 87245733;
   65020120; -9917586; 184663701; -107008481].

(** [static const float demo_test_input_k[10] = { ... };] *)
Definition demo_test_input_0 : list f32 := map fl32 demo_test_lit_0.
Definition demo_test_input_1 : list f32 := map fl32 demo_test_lit_1.
Definition demo_test_input_2 : list f32 := map fl32 demo_test_lit_2.
Definition demo_test_input_3 : list f32 := map fl32 demo_test_lit_3.
Definition demo_test_input_4 : list f32 := map fl32 demo_test_lit_4.

(** The five arrays in declaration order. *)
Definition demo_test_inputs : list (list f32) :=
  [demo_test_input_0; demo_test_input_1; demo_test_input_2;
   demo_test_input_3; demo_test_input_4].

Definition demo_test_lits : list (list Z) :=
  [demo_test_lit_0; demo_test_lit_1; demo_test_lit_2;
   demo_test_lit_3; demo_test_lit_4].

(** ** The accessor *)

Inductive lookup_error : Type := OutOfRange.

(** Modelled from the spec: the accessor [get_test_vector], absent from
    the header, is "a single read-only mapping from a vector index
    (0..N-1) to a fixed-length immutable sequence", which "fails with
    OutOfRange when index is not in [0, N_VECTORS)". [lookup_in] is that
    mapping over a given table. *)
Definition lookup_in (table : list (list f32)) (index : Z)
  : lookup_error + list f32 :=
  if (0 <=? index) && (index <? DEMO_N_TEST_VECTORS) then
    match nth_error table (Z.to_nat index) with
    | Some v => inr v
    | None => inl OutOfRange
    end
  else inl OutOfRange.

Definition get_test_vector (index : Z) : lookup_error + list f32 :=
  lookup_in demo_test_inputs index.

Definition succeeds {A} (r : lookup_error + A) : bool :=
  match r with inr _ => true | inl _ => false end.

(** ** Reads against the static storage

    The storage holds the table; a read returns the accessor's answer
    computed from the storage and hands the storage back unchanged. *)
Definition State (S A : Type) : Type := S -> A * S.

Definition ret {S A} (a : A) : State S A := fun s => (a, s).
Definition bind {S A B} (m : State S A) (k : A -> State S B) : State S B :=
  fun s => let '(a, s') := m s in k a s'.

Notation "x <- m ;; k" := (bind m (fun x => k))
  (at level 61, m at next level, right associativity).

Definition read_vec (index : Z) : State (list (list f32)) (lookup_error + list f32) :=
  fun table => (lookup_in table index, table).

Fixpoint read_all (ixs : list Z)
  : State (list (list f32)) (list (lookup_error + list f32)) :=
  match ixs with
  | [] => ret []
  | i :: rest => r <- read_vec i ;; rs <- read_all rest ;; ret (r :: rs)
  end.

(** ** Element checks *)

Definition in_range (x : f32) : bool :=
  match f32_Q x with
  | Some q => Qle_bool (-5 # 2) q && Qle_bool q (5 # 2)
  | None => false
  end.

Definition lit_in_range (n : Z) : bool := (-250000000 <=? n) && (n <=? 250000000).

Definition first_value (v : list f32) : option Q :=
  match v with x :: _ => f32_Q x | [] => None end.

Definition Q_differ (a b : option Q) : bool :=
  match a, b with
  | Some x, Some y => negb (Qeq_bool x y)
  | _, _ => false
  end.

(** ** C array initialisation

    [T a[n] = { x_1, ..., x_k };] with [k <= n] stores the initialisers
    followed by [n - k] zeros; more than [n] initialisers is an error. *)
Definition c_array_init {A} (zero : A) (n : nat) (inits : list A) : option (list A) :=
  if (length inits <=? n)%nat then Some (inits ++ repeat zero (n - length inits))
  else None.

Definition f32_zero : f32 := F32 false 0 0.

(** ** Rounding of the table's literals *)

(** A stored element is a normal binary32 ([2^23 <= m < 2^24]) within half
    a unit in the last place ([2^(e-1)]) of the literal [n / 10^8]. *)
Definition nearest_normal (n : Z) (x : f32) : bool :=
  match x, f32_Q x with
  | F32 _ m e, Some q =>
      (2 ^ 23 <=? m) && (m <? 2 ^ 24) &&
      Qle_bool (Qabs (q - Qmake n 100000000))
               (if e - 1 <? 0 then Qmake 1 (Z.to_pos (2 ^ (1 - e)))
                else inject_Z (2 ^ (e - 1)))
  | _, _ => false
  end.

Definition f32_ltb (x y : f32) : bool :=
  match f32_Q x, f32_Q y with
  | Some a, Some b => negb (Qle_bool b a)
  | _, _ => false
  end.

Definition f32_eqb (x y : f32) : bool :=
  match f32_Q x, f32_Q y with
  | Some a, Some b => Qeq_bool a b
  | _, _ => false
  end.

(** Every literal of the table paired with its stored element. *)
Definition table_pairs : list (Z * f32) :=
  combine (concat demo_test_lits) (concat demo_test_inputs).

(** ** The include guard

    [#ifndef DEMO_TEST_VECTORS_H / #define DEMO_TEST_VECTORS_H ... #endif]:
    the preprocessor state is the list of defined macro names; an inclusion
    emits the header's declarations only when the guard is undefined. *)
Inductive decl : Type :=
| DefineMacro (name : String.string) (value : Z)
| ArrayDecl (name : String.string) (vals : list f32).

Definition decl_name (d : decl) : String.string :=
  match d with DefineMacro n _ => n | ArrayDecl n _ => n end.

Definition header_body : list decl :=
  [DefineMacro "DEMO_N_TEST_VECTORS"%string DEMO_N_TEST_VECTORS;
   ArrayDecl "demo_test_input_0"%string demo_test_input_0;
   ArrayDecl "demo_test_input_1"%string demo_test_input_1;
   ArrayDecl "demo_test_input_2"%string demo_test_input_2;
   ArrayDecl "demo_test_input_3"%string demo_test_input_3;
   ArrayDecl "demo_test_input_4"%string demo_test_input_4].

Definition include_demo_header (defined : list String.string) : list String.string * list decl :=
  if existsb (String.eqb "DEMO_TEST_VECTORS_H"%string) defined then (defined, [])
  else ("DEMO_N_TEST_VECTORS"%string :: "DEMO_TEST_VECTORS_H"%string :: defined, header_body).

(** [n] successive [#include "demo_test_vectors.h"] lines. *)
Fixpoint include_n (n : nat) (defined : list String.string) : list String.string * list decl :=
  match n with
  | O => (defined, [])
  | S n' =>
      let '(defined', ds) := include_demo_header defined in
      let '(defined'', ds') := include_n n' defined' in
      (defined'', ds ++ ds')
  end.

(** ** Helper lemmas *)

Lemma nth_error_combine_some {A B} (la : list A) (lb : list B) (k : nat) a b :
  nth_error la k = Some a -> nth_error lb k = Some b ->
  nth_error (combine la lb) k = Some (a, b).
Proof.
  revert lb k. induction la as [| x la IH]; intros lb k Ha Hb.
  - destruct k; discriminate.
  - destruct lb as [| y lb]; [destruct k; discriminate |].
    destruct k as [| k]; simpl in *.
    + congruence.
    + apply IH; assumption.
Qed.

Lemma table_pairs_nth (k : nat) (n : Z) (x : f32) :
  nth_error (concat demo_test_lits) k = Some n ->
  nth_error (concat demo_test_inputs) k = Some x ->
  In (n, x) table_pairs.
Proof.
  intros Hn Hx. apply (nth_error_In _ k). unfold table_pairs.
  apply nth_error_combine_some; assumption.
Qed.

Lemma get_test_vector_cases (i : Z) :
  (i = 0 /\ get_test_vector i = inr demo_test_input_0) \/
  (i = 1 /\ get_test_vector i = inr demo_test_input_1) \/
  (i = 2 /\ get_test_vector i = inr demo_test_input_2) \/
  (i = 3 /\ get_test_vector i = inr demo_test_input_3) \/
  (i = 4 /\ get_test_vector i = inr demo_test_input_4) \/
  (~ (0 <= i < 5) /\ get_test_vector i = inl OutOfRange).
Proof.
  unfold get_test_vector, lookup_in, DEMO_N_TEST_VECTORS.
  destruct (Z.leb_spec 0 i); destruct (Z.ltb_spec i 5); simpl;
    try (right; right; right; right; right; split; [lia | reflexivity]).
  assert (i = 0 \/ i = 1 \/ i = 2 \/ i = 3 \/ i = 4) as Hi by lia.
  destruct Hi as [-> | [-> | [-> | [-> | ->]]]]; simpl; tauto.
Qed.

Lemma get_test_vector_inr (i : Z) (v : list f32) :
  get_test_vector i = inr v -> In v demo_test_inputs.
Proof.
  intros H. destruct (get_test_vector_cases i)
    as [[_ E] | [[_ E] | [[_ E] | [[_ E] | [[_ E] | [_ E]]]]]];
    rewrite E in H; try discriminate; injection H as <-; simpl; tauto.
Qed.

Lemma read_all_spec (ixs : list Z) (table : list (list f32)) :
  read_all ixs table = (map (lookup_in table) ixs, table).
Proof.
  induction ixs as [| i rest IH]; simpl.
  - reflexivity.
  - unfold bind, read_vec at 1. rewrite IH. reflexivity.
Qed.

Lemma succeeds_get_test_vector (i : Z) :
  succeeds (get_test_vector i) = true <-> 0 <= i < 5.
Proof.
  destruct (get_test_vector_cases i)
    as [[-> E] | [[-> E] | [[-> E] | [[-> E] | [[-> E] | [Hi E]]]]]];
    rewrite E; simpl; split; intros; (lia || reflexivity || discriminate || contradiction).
Qed.

Lemma filter_none {A} (f : A -> bool) (l : list A) :
  (forall x, In x l -> f x = false) -> filter f l = [].
Proof.
  induction l as [| a l IH]; intros H; simpl; [reflexivity |].
  rewrite H by (left; reflexivity). apply IH. intros x Hx. apply H. right. exact Hx.
Qed.

Lemma filter_every {A} (f : A -> bool) (l : list A) :
  (forall x, In x l -> f x = true) -> filter f l = l.
Proof.
  induction l as [| a l IH]; intros H; simpl; [reflexivity |].
  rewrite H by (left; reflexivity). f_equal. apply IH.
  intros x Hx. apply H. right. exact Hx.
Qed.

(** Settle [inl _ = inr _] by discrimination and [inr a = inr v] by
    replacing [v] with [a], without reducing the vectors themselves. *)
Ltac inr_cases H :=
  lazymatch type of H with
  | inl _ = inr _ => discriminate H
  | inr _ = inr _ => injection H as <-
  end.

Lemma Q_differ_irrefl (a : option Q) : Q_differ a a = false.
Proof.
  destruct a as [q |]; simpl; [| reflexivity].
  rewrite Qeq_bool_refl. reflexivity.
Qed.

(** ** Claims *)

(** C1: for every index [i], [get_test_vector i] returns a vector exactly
    when [0 <= i < 5]; at every other index it returns the [OutOfRange]
    error, never a default vector. *)
Theorem get_test_vector_ok_iff_in_range (i : Z) :
  ((exists v, get_test_vector i = inr v) <-> 0 <= i < 5) /\
  (~ (0 <= i < 5) -> get_test_vector i = inl OutOfRange).
Proof.
  destruct (get_test_vector_cases i)
    as [[-> E] | [[-> E] | [[-> E] | [[-> E] | [[-> E] | [Hi E]]]]]];
    rewrite E;
    try (split; [split; [intros _; lia | intros _; eexists; reflexivity]
                | intros Hn; exfalso; lia]).
  split.
  - split; [intros [v Hv]; discriminate | intros H; contradiction].
  - intros _; reflexivity.
Qed.

(** C2: every vector that [get_test_vector] returns has exactly 10
    elements; each of the five declared arrays has length 10. *)
Theorem get_test_vector_length (i : Z) (v : list f32) :
  get_test_vector i = inr v -> length v = 10%nat.
Proof.
  intros H. apply get_test_vector_inr in H.
  simpl in H. decompose [or] H; subst; try contradiction; reflexivity.
Qed.

Lemma get_test_vector_length_witness :
  get_test_vector 3 = inr demo_test_input_3 /\ length demo_test_input_3 = 10%nat.
Proof.
  split; [reflexivity | apply (get_test_vector_length 3); reflexivity].
Defined.

(** C3: [DEMO_N_TEST_VECTORS] is 5, the table holds that many vectors,
    and the indices at which [get_test_vector] succeeds are exactly
    [0 .. DEMO_N_TEST_VECTORS - 1]; counted over any window [-k, 5 + k)
    they number [DEMO_N_TEST_VECTORS]. *)
Theorem demo_count_matches (k : nat) :
  DEMO_N_TEST_VECTORS = 5 /\
  Z.of_nat (length demo_test_inputs) = DEMO_N_TEST_VECTORS /\
  (forall i, succeeds (get_test_vector i) = true <-> 0 <= i < DEMO_N_TEST_VECTORS) /\
  Z.of_nat (length (filter (fun i => succeeds (get_test_vector i))
             (map (fun n => Z.of_nat n - Z.of_nat k) (seq 0 (5 + 2 * k)))))
    = DEMO_N_TEST_VECTORS.
Proof.
  set (g := fun n => Z.of_nat n - Z.of_nat k).
  set (f := fun i => succeeds (get_test_vector i)).
  split; [reflexivity |]. split; [reflexivity |]. split.
  { intros i. apply succeeds_get_test_vector. }
  replace (5 + 2 * k)%nat with (k + (5 + k))%nat by lia.
  rewrite seq_app, seq_app, !map_app, !filter_app.
  rewrite (filter_none f (map g (seq 0 k))).
  2:{ intros x Hx. apply in_map_iff in Hx. destruct Hx as [n [<- Hn]].
      apply in_seq in Hn. unfold f. destruct (succeeds (get_test_vector (g n))) eqn:E; [| reflexivity].
      apply succeeds_get_test_vector in E. unfold g in E. lia. }
  rewrite (filter_none f (map g (seq (0 + k + 5) k))).
  2:{ intros x Hx. apply in_map_iff in Hx. destruct Hx as [n [<- Hn]].
      apply in_seq in Hn. unfold f. destruct (succeeds (get_test_vector (g n))) eqn:E; [| reflexivity].
      apply succeeds_get_test_vector in E. unfold g in E. lia. }
  rewrite (filter_every f (map g (seq (0 + k) 5))).
  2:{ intros x Hx. apply in_map_iff in Hx. destruct Hx as [n [<- Hn]].
      apply in_seq in Hn. unfold f. apply succeeds_get_test_vector. unfold g. lia. }
  rewrite app_nil_l, app_nil_r, length_map, length_seq. reflexivity.
Qed.

(** C4: index 0 yields a 10-element vector whose first element is the
    binary32 of the literal [-0.16711809f] and whose last element is the
    binary32 of [0.04643655f]; each stored value is within half a unit in
    the last place of its literal. *)
Theorem get_test_vector_0_ends :
  exists v, get_test_vector 0 = inr v /\ length v = 10%nat /\
    nth_error v 0 = Some (fl32 (-16711809)) /\
    nth_error v 9 = Some (fl32 4643655) /\
    fl32 (-16711809) = F32 true 11215105 (-26) /\
    fl32 4643655 = F32 false 12465216 (-28) /\
    f32_Q (fl32 (-16711809)) = Some (-11215105 # 67108864) /\
    f32_Q (fl32 4643655) = Some (12465216 # 268435456) /\
    (Qabs ((-11215105 # 67108864) - (-16711809 # 100000000)) <= 1 # 134217728)%Q /\
    (Qabs ((12465216 # 268435456) - (4643655 # 100000000)) <= 1 # 536870912)%Q.
Proof.
  exists demo_test_input_0.
  repeat split; try reflexivity; apply Qle_bool_iff; vm_compute; reflexivity.
Qed.

(** C5: index 4 yields a vector whose third element (zero-based index 2)
    is the binary32 of the literal [0.24380071f]. *)
Theorem get_test_vector_4_third :
  exists v, get_test_vector 4 = inr v /\
    nth_error v 2 = Some (fl32 24380071) /\
    fl32 24380071 = F32 false 16361189 (-26).
Proof.
  exists demo_test_input_4. repeat split; vm_compute; reflexivity.
Qed.

(** C6: every element of every vector [get_test_vector] returns lies in
    [[-2.5, 2.5]]; so does every literal of the five arrays. *)
Theorem test_vector_elements_in_range (i : Z) (v : list f32) :
  get_test_vector i = inr v ->
  forallb in_range v = true /\
  forallb (forallb lit_in_range) demo_test_lits = true.
Proof.
  intros H. apply get_test_vector_inr in H. split; [| vm_compute; reflexivity].
  assert (Hall : forallb (forallb in_range) demo_test_inputs = true)
    by (vm_compute; reflexivity).
  rewrite forallb_forall in Hall. exact (Hall v H).
Qed.

Lemma test_vector_elements_in_range_witness :
  get_test_vector 1 = inr demo_test_input_1 /\
  forallb in_range demo_test_input_1 = true /\
  forallb (forallb lit_in_range) demo_test_lits = true.
Proof.
  split; [reflexivity |]. apply (test_vector_elements_in_range 1). reflexivity.
Defined.

(** C7: reads never change the storage: running any sequence of reads
    from the initial table leaves the table as it was, and two reads of
    the same index, wherever they occur in the sequence, return the same
    answer, the one [get_test_vector] gives. *)
Theorem reads_repeatable (ixs : list Z) (n1 n2 : nat) (i : Z) :
  nth_error ixs n1 = Some i -> nth_error ixs n2 = Some i ->
  snd (read_all ixs demo_test_inputs) = demo_test_inputs /\
  nth_error (fst (read_all ixs demo_test_inputs)) n1 = Some (get_test_vector i) /\
  nth_error (fst (read_all ixs demo_test_inputs)) n2 = Some (get_test_vector i).
Proof.
  intros H1 H2. rewrite read_all_spec. cbn [fst snd].
  rewrite !nth_error_map, H1, H2. repeat split.
Qed.

Lemma reads_repeatable_witness :
  nth_error [2; 7; 2] 0 = Some 2 /\ nth_error [2; 7; 2] 2 = Some 2 /\
  snd (read_all [2; 7; 2] demo_test_inputs) = demo_test_inputs /\
  nth_error (fst (read_all [2; 7; 2] demo_test_inputs)) 0 = Some (get_test_vector 2) /\
  nth_error (fst (read_all [2; 7; 2] demo_test_inputs)) 2 = Some (get_test_vector 2).
Proof.
  split; [reflexivity |]. split; [reflexivity |].
  apply (reads_repeatable [2; 7; 2] 0 2 2); reflexivity.
Defined.

(** C8: the indices are contiguous from 0 and index [k] in [0 .. 4]
    returns the array [demo_test_input_k], in declaration order. *)
Theorem get_test_vector_declaration_order :
  get_test_vector 0 = inr demo_test_input_0 /\
  get_test_vector 1 = inr demo_test_input_1 /\
  get_test_vector 2 = inr demo_test_input_2 /\
  get_test_vector 3 = inr demo_test_input_3 /\
  get_test_vector 4 = inr demo_test_input_4 /\
  (forall i, succeeds (get_test_vector i) = true <-> 0 <= i < 5).
Proof.
  do 5 (split; [reflexivity |]). intros i. apply succeeds_get_test_vector.
Qed.

(** C9: every element of every vector [get_test_vector] returns is a
    finite, nonzero binary32; every literal of the arrays is nonzero. *)
Theorem test_vector_elements_finite_nonzero (i : Z) (v : list f32) :
  get_test_vector i = inr v ->
  forallb (fun x => is_finite x && is_nonzero x) v = true /\
  forallb (forallb (fun n => negb (n =? 0))) demo_test_lits = true.
Proof.
  intros H. apply get_test_vector_inr in H. split; [| vm_compute; reflexivity].
  assert (Hall : forallb (forallb (fun x => is_finite x && is_nonzero x))
                   demo_test_inputs = true) by (vm_compute; reflexivity).
  rewrite forallb_forall in Hall. exact (Hall v H).
Qed.

Lemma test_vector_elements_finite_nonzero_witness :
  get_test_vector 2 = inr demo_test_input_2 /\
  forallb (fun x => is_finite x && is_nonzero x) demo_test_input_2 = true /\
  forallb (forallb (fun n => negb (n =? 0))) demo_test_lits = true.
Proof.
  split; [reflexivity |]. apply (test_vector_elements_finite_nonzero 2). reflexivity.
Defined.

(** C10: the five vectors are pairwise distinct: at two different valid
    indices the returned vectors differ, and already their first
    elements have different values. *)
Theorem test_vectors_pairwise_distinct (i j : Z) (vi vj : list f32) :
  i <> j -> get_test_vector i = inr vi -> get_test_vector j = inr vj ->
  vi <> vj /\ Q_differ (first_value vi) (first_value vj) = true.
Proof.
  intros Hij Hi Hj.
  assert (Hd : Q_differ (first_value vi) (first_value vj) = true).
  { destruct (get_test_vector_cases i)
      as [[-> E] | [[-> E] | [[-> E] | [[-> E] | [[-> E] | [_ E]]]]]];
      rewrite E in Hi; inr_cases Hi;
    destruct (get_test_vector_cases j)
      as [[-> E'] | [[-> E'] | [[-> E'] | [[-> E'] | [[-> E'] | [_ E']]]]]];
      rewrite E' in Hj; inr_cases Hj;
      first [exfalso; apply Hij; reflexivity | vm_compute; reflexivity]. }
  split; [| exact Hd].
  intros ->. rewrite Q_differ_irrefl in Hd. discriminate.
Qed.

Lemma test_vectors_pairwise_distinct_witness :
  demo_test_input_1 <> demo_test_input_3 /\
  Q_differ (first_value demo_test_input_1) (first_value demo_test_input_3) = true.
Proof.
  apply (test_vectors_pairwise_distinct 1 3); [discriminate | reflexivity | reflexivity].
Defined.

(** ** Further properties of the header *)

Lemma c_array_init_exact {A} (zero : A) (n : nat) (l : list A) :
  length l = n -> c_array_init zero n l = Some l.
Proof.
  intros <-. unfold c_array_init. rewrite Nat.leb_refl, Nat.sub_diag.
  simpl. rewrite app_nil_r. reflexivity.
Qed.

(** X1: each array's initialiser list has exactly the declared ten
    elements, so C's aggregate initialisation of [float a[10]] keeps the
    literals as they are: no element is a zero filled in for a missing
    initialiser, and no initialiser is in excess. *)
Theorem demo_arrays_fully_initialised (k : nat) (lits : list Z) (v : list f32) :
  nth_error demo_test_lits k = Some lits ->
  nth_error demo_test_inputs k = Some v ->
  length lits = 10%nat /\ c_array_init f32_zero 10 (map fl32 lits) = Some v.
Proof.
  intros Hl Hv.
  destruct k as [| [| [| [| [| k]]]]]; cbn [nth_error demo_test_lits demo_test_inputs] in Hl, Hv;
    try (destruct k; discriminate);
    injection Hl as <-; injection Hv as <-;
    (split; [reflexivity | apply c_array_init_exact; reflexivity]).
Qed.

Lemma demo_arrays_fully_initialised_witness :
  length demo_test_lit_2 = 10%nat /\
  c_array_init f32_zero 10 (map fl32 demo_test_lit_2) = Some demo_test_input_2.
Proof.
  apply (demo_arrays_fully_initialised 2); reflexivity.
Defined.

(** X2: every one of the 50 stored elements is a normal binary32 (24
    significant bits, no subnormal) lying within half a unit in the last
    place of the decimal literal written in the source. *)
Theorem table_elements_nearest (k : nat) (n : Z) (x : f32) :
  nth_error (concat demo_test_lits) k = Some n ->
  nth_error (concat demo_test_inputs) k = Some x ->
  nearest_normal n x = true.
Proof.
  intros Hn Hx. pose proof (table_pairs_nth k n x Hn Hx) as Hin.
  assert (Hall : forallb (fun p => nearest_normal (fst p) (snd p)) table_pairs = true)
    by (vm_compute; reflexivity).
  rewrite forallb_forall in Hall. exact (Hall (n, x) Hin).
Qed.

Lemma table_elements_nearest_witness :
  nearest_normal 157745326 (fl32 157745326) = true.
Proof.
  apply (table_elements_nearest 17); vm_compute; reflexivity.
Defined.

(** X3: storing the literals as binary32 neither reorders nor merges
    them: for any two elements of the table, one literal is smaller than
    the other exactly when its stored value is, and two literals are
    equal exactly when their stored values are. *)
Theorem table_rounding_preserves_order (k1 k2 : nat) (n1 n2 : Z) (x1 x2 : f32) :
  nth_error (concat demo_test_lits) k1 = Some n1 ->
  nth_error (concat demo_test_inputs) k1 = Some x1 ->
  nth_error (concat demo_test_lits) k2 = Some n2 ->
  nth_error (concat demo_test_inputs) k2 = Some x2 ->
  (n1 <? n2) = f32_ltb x1 x2 /\ (n1 =? n2) = f32_eqb x1 x2.
Proof.
  intros H1 H1' H2 H2'.
  pose proof (table_pairs_nth _ _ _ H1 H1') as P1.
  pose proof (table_pairs_nth _ _ _ H2 H2') as P2.
  assert (Hall : forallb (fun p => forallb (fun q =>
            Bool.eqb (fst p <? fst q) (f32_ltb (snd p) (snd q)) &&
            Bool.eqb (fst p =? fst q) (f32_eqb (snd p) (snd q))) table_pairs)
            table_pairs = true) by (vm_compute; reflexivity).
  rewrite forallb_forall in Hall. specialize (Hall _ P1).
  rewrite forallb_forall in Hall. specialize (Hall _ P2).
  apply andb_prop in Hall. destruct Hall as [Ha Hb].
  apply eqb_prop in Ha. apply eqb_prop in Hb. simpl in Ha, Hb. auto.
Qed.

Lemma table_rounding_preserves_order_witness :
  (-16711809 <? 14671369) = f32_ltb (fl32 (-16711809)) (fl32 14671369) /\
  (-16711809 =? 14671369) = f32_eqb (fl32 (-16711809)) (fl32 14671369).
Proof.
  apply (table_rounding_preserves_order 0 1); vm_compute; reflexivity.
Defined.

Lemma include_n_guarded (n : nat) (s : list string) :
  existsb (String.eqb "DEMO_TEST_VECTORS_H") s = true -> include_n n s = (s, []).
Proof.
  intros H. induction n as [| n IH]; simpl; [reflexivity |].
  unfold include_demo_header. rewrite H, IH. reflexivity.
Qed.

(** X4: thanks to the include guard, including the header one or more
    times emits its declarations exactly once when the guard macro is not
    yet defined, and nothing when it is; the emitted declarations never
    define the same name twice. *)
Theorem include_guard_once (n : nat) (defined : list string) :
  snd (include_n (S n) defined) =
    (if existsb (String.eqb "DEMO_TEST_VECTORS_H") defined then [] else header_body) /\
  NoDup (map decl_name (snd (include_n (S n) defined))).
Proof.
  cbn [include_n]. unfold include_demo_header.
  destruct (existsb (String.eqb "DEMO_TEST_VECTORS_H") defined) eqn:E.
  - rewrite include_n_guarded by exact E. split; [reflexivity | constructor].
  - rewrite include_n_guarded by reflexivity. cbn [snd]. rewrite app_nil_r.
    split; [reflexivity |].
    cbn [map decl_name header_body].
    repeat constructor; cbn [In]; intuition discriminate.
Qed.
